(** * Validated descriptor fields ([PropertyWithValidator], [IPv4], [Flow])

    A shallow embedding of the code cell of the notebook
    [_jupyter/descriptors/validator]:

    - Python values and the two renderings the cell uses on them
      ([str] through [format], [repr] through [%r]);
    - the fragment of [re] that the compiled pattern
      [^(?:[0-9]{1,3}\.){3}[0-9]{1,3}$] needs, as a backtracking matcher;
    - an instance as its [__dict__], a class as the names its body binds
      to descriptors (as [Flow], whose body is two [IPv4()] fields and
      nothing else), [getattr]/[setattr] with the precedence of data
      descriptors over the instance dictionary. Two things the builtins
      do are left out: a descriptor object bound to several names
      ([a = b = IPv4()]), and the attributes every type provides by
      itself, all under names of the form [__x__] ([__doc__], [__dict__],
      [__class__], the methods of [object]). A claim or property below
      that depends on either says so: the first in words, the second by
      the hypothesis [names_unreserved];
    - the logging sink as the list of emitted records.

    A Python [str] is a sequence of code points; a [string] here is read as
    the sequence of the code points of its bytes (the Latin-1 range). *)

From Stdlib Require Import ZArith Lia Bool List Ascii String.
From stdpp Require Import base strings gmap pretty.
Import ListNotations.

Local Open Scope string_scope.

(** ** Strings *)

Module Str.

(** [all p s]: every code point of [s] satisfies [p]. *)
Fixpoint all (p : ascii → bool) (s : string) : bool :=
  match s with
  | "" => true
  | String a t => p a && all p t
  end.

(** [a in s] for a single code point. *)
Fixpoint has_char (a : ascii) (s : string) : bool :=
  match s with
  | "" => false
  | String b t => Ascii.eqb a b || has_char a t
  end.

(** [s.startswith(p)] *)
Fixpoint startswith (p s : string) : bool :=
  match p, s with
  | "", _ => true
  | String a p', String b s' => Ascii.eqb a b && startswith p' s'
  | String _ _, "" => false
  end.

(** [sub in s], computed. *)
Fixpoint isin (sub s : string) : bool :=
  startswith sub s
  || match s with
     | "" => false
     | String _ s' => isin sub s'
     end.

(** [sub in s], as a proposition. *)
Definition contains (s sub : string) : Prop :=
  ∃ pre post, s = pre +:+ sub +:+ post.

(** [s.split(sep)] for a one-character separator. *)
Fixpoint split (sep : ascii) (s : string) : list string :=
  match s with
  | "" => [""]
  | String a t =>
      if Ascii.eqb a sep then "" :: split sep t
      else match split sep t with
           | g :: gs => String a g :: gs
           | [] => [String a ""]
           end
  end.

(** [sep.join(parts)] *)
Fixpoint join (sep : ascii) (parts : list string) : string :=
  match parts with
  | [] => ""
  | [g] => g
  | g :: gs => g +:+ String sep (join sep gs)
  end.

End Str.

(** ** The fragment of [re] used by the pattern *)

Module Re.

(** Patterns: [^], [$], an escaped literal, a character range, sequencing
    and the bounded repeat [r{lo,hi}]. The non-capturing group [(?:r)] is
    grouping only and has no node of its own. *)
Inductive regex : Type :=
| Bol
| Eol
| Lit (a : ascii)
| Range (lo hi : ascii)
| Cat (r1 r2 : regex)
| Rep (r : regex) (lo hi : nat).

(** The matcher's position: how many code points are behind it, and the
    text ahead. *)
Record cursor : Type := Cursor { pos : nat; rest : string }.

Definition in_range (lo hi a : ascii) : bool :=
  (Ascii.leb lo a && Ascii.leb a hi)%bool.

(** [$] without [re.MULTILINE]: at the end of the text, or just before a
    newline that ends the text. *)
Definition at_eol (s : string) : bool :=
  match s with
  | "" => true
  | String a "" => Ascii.eqb a "010"
  | _ => false
  end.

Definition step_if (p : ascii → bool) (k : cursor → bool) (c : cursor) : bool :=
  match rest c with
  | String a t => p a && k (Cursor (S (pos c)) t)
  | "" => false
  end.

(** [n] mandatory iterations of [step]. *)
Fixpoint rep_min (step : (cursor → bool) → cursor → bool) (n : nat)
    (k : cursor → bool) (c : cursor) : bool :=
  match n with
  | 0 => k c
  | S n' => step (rep_min step n' k) c
  end.

(** Up to [n] further iterations, greedy: one more iteration is tried
    before the continuation. *)
Fixpoint rep_opt (step : (cursor → bool) → cursor → bool) (n : nat)
    (k : cursor → bool) (c : cursor) : bool :=
  match n with
  | 0 => k c
  | S n' => step (rep_opt step n' k) c || k c
  end.

(** Backtracking match of [r] at [c], then the continuation [k]. *)
Fixpoint rmatch (r : regex) (k : cursor → bool) (c : cursor) : bool :=
  match r with
  | Bol => Nat.eqb (pos c) 0 && k c
  | Eol => at_eol (rest c) && k c
  | Lit a => step_if (Ascii.eqb a) k c
  | Range lo hi => step_if (in_range lo hi) k c
  | Cat r1 r2 => rmatch r1 (rmatch r2 k) c
  | Rep r' lo hi => rep_min (rmatch r') lo (rep_opt (rmatch r') (hi - lo) k) c
  end.

(** [pattern.match(s)] is truthy: the pattern matches at the start of [s];
    it need not consume all of it. *)
Definition match_ (r : regex) (s : string) : bool :=
  rmatch r (fun _ => true) (Cursor 0 s).

(** *** What a pattern denotes *)

Fixpoint iter (R : cursor → cursor → Prop) (n : nat) (c c' : cursor) : Prop :=
  match n with
  | 0 => c = c'
  | S n' => ∃ c1, R c c1 ∧ iter R n' c1 c'
  end.

Definition den_if (p : ascii → bool) (c c' : cursor) : Prop :=
  ∃ a, p a = true ∧ rest c = String a (rest c') ∧ pos c' = S (pos c).

Fixpoint den (r : regex) (c c' : cursor) : Prop :=
  match r with
  | Bol => pos c = 0 ∧ c = c'
  | Eol => at_eol (rest c) = true ∧ c = c'
  | Lit a => den_if (Ascii.eqb a) c c'
  | Range lo hi => den_if (in_range lo hi) c c'
  | Cat r1 r2 => ∃ c1, den r1 c c1 ∧ den r2 c1 c'
  | Rep r' lo hi => ∃ n, (lo ≤ n ∧ n - lo ≤ hi - lo)%nat ∧ iter (den r') n c c'
  end.

End Re.

(** ** Python values, [str] and [repr] *)

Module Py.

(** The values a caller may hand to a validated field. *)
Inductive value : Type :=
| VNone
| VBool (b : bool)
| VInt (z : Z)
| VStr (s : string).

#[global] Instance value_eq_dec : EqDecision value.
Proof. solve_decision. Defined.

(** [type(value) is str] *)
Definition type_is_str (v : value) : bool :=
  match v with VStr _ => true | _ => false end.

Definition ord (a : ascii) : nat := nat_of_ascii a.

Definition squote : ascii := "'"%char.
Definition dquote : ascii := "034"%char.
Definition backslash : ascii := "092"%char.
Definition newline : ascii := "010"%char.

Definition hex_digit (n : nat) : ascii :=
  match n with
  | 0 => "0" | 1 => "1" | 2 => "2" | 3 => "3" | 4 => "4" | 5 => "5"
  | 6 => "6" | 7 => "7" | 8 => "8" | 9 => "9" | 10 => "a" | 11 => "b"
  | 12 => "c" | 13 => "d" | 14 => "e" | _ => "f"
  end%char.

(** The escape [\xHH]. *)
Definition hex_escape (a : ascii) : string :=
  String backslash
    (String "x" (String (hex_digit (ord a / 16))
                   (String (hex_digit (ord a mod 16)) ""))).

(** Printable code points from U+0080 to U+00FF: all but the C1 controls,
    the no-break space and the soft hyphen. *)
Definition isprintable_high (a : ascii) : bool :=
  (161 <=? ord a)%nat && negb (ord a =? 173)%nat.

(** One code point of [repr(s)], inside quotes [quote]. *)
Definition repr_char (quote a : ascii) : string :=
  if Ascii.eqb a quote || Ascii.eqb a backslash then String backslash (String a "")
  else if Ascii.eqb a "009" then String backslash "t"
  else if Ascii.eqb a "010" then String backslash "n"
  else if Ascii.eqb a "013" then String backslash "r"
  else if (ord a <? 32)%nat || (ord a =? 127)%nat then hex_escape a
  else if (ord a <? 127)%nat then String a ""
  else if isprintable_high a then String a ""
  else hex_escape a.

Fixpoint repr_body (quote : ascii) (s : string) : string :=
  match s with
  | "" => ""
  | String a t => repr_char quote a +:+ repr_body quote t
  end.

(** [repr] of a [str]: single quotes, unless the text has a single quote
    and no double quote. *)
Definition repr_str (s : string) : string :=
  let quote := if Str.has_char squote s && negb (Str.has_char dquote s)
               then dquote else squote in
  String quote (repr_body quote s +:+ String quote "").

(** [str(value)], which is what [format] puts in place of [{}]. *)
Definition str (v : value) : string :=
  match v with
  | VNone => "None"
  | VBool true => "True"
  | VBool false => "False"
  | VInt z => pretty z
  | VStr s => s
  end.

(** [repr(value)], which is what [%r] puts in a log message. *)
Definition repr (v : value) : string :=
  match v with
  | VStr s => repr_str s
  | _ => str v
  end.

(** [template.format(value)] for a template with one [{}]. *)
Fixpoint format (template : string) (v : value) : string :=
  match template with
  | "" => ""
  | String "{" (String "}" t) => str v +:+ t
  | String a t => String a (format t v)
  end.

(** [fmt % (value,)] for a format with one [%r]. *)
Fixpoint percent (fmt : string) (v : value) : string :=
  match fmt with
  | "" => ""
  | String "%" (String "r" t) => repr v +:+ t
  | String a t => String a (percent t v)
  end.

Inductive exn : Type :=
| ValidationException (msg : string)
| AttributeError (msg : string).

Inductive outcome (A : Type) : Type :=
| Return (a : A)
| Raise (e : exn).
Arguments Return {A} a.
Arguments Raise {A} e.

End Py.
Import Py.

(** ** The logging sink and the instance *)

Inductive level : Type := INFO.

(** A record handed to the root logger's handler. *)
Record log_record : Type := LogRecord { levelname : level; message : string }.

(** The part of the interpreter's state the cell touches: the [__dict__] of
    the instance [obj], and what the root logger has emitted so far. *)
Record world : Type := World { obj_dict : gmap string value; emitted : list log_record }.

(** A computation may read and change the world, and returns or raises. *)
Definition M (A : Type) : Type := world → outcome A * world.

#[global] Instance M_ret : MRet M := λ A a w, (Return a, w).

#[global] Instance M_bind : MBind M := λ A B f m w,
  match m w with
  | (Return a, w') => f a w'
  | (Raise e, w') => (Raise e, w')
  end.

(** Lifting of a pure computation that may raise. *)
Definition lift {A} (o : outcome A) : M A := fun w => (o, w).

(** [logging.info(fmt, value)] after
    [logging.basicConfig(level=logging.INFO)]: the root logger emits the
    record. *)
Definition logging_info (fmt : string) (v : value) : M unit :=
  fun w => (Return tt,
            World (obj_dict w) (emitted w ++ [LogRecord INFO (percent fmt v)])).

(** A class: its name and the names its body binds to descriptors, each by
    a statement [name = IPv4()] of its own, so that no two names share a
    descriptor object; all descriptors are of one validator class. *)
Record pyclass : Type := PyClass { cls_name : string; cls_fields : list string }.

(** The state of a descriptor object. *)
Record descriptor : Type := Descriptor { property_name : string }.

(** ** [PropertyWithValidator] *)

(** The state of [self] after [self.property_name = "_" + name]; the
    descriptor has no other attribute. *)
Definition __set_name__ (owner : pyclass) (name : string) : descriptor :=
  Descriptor ("_" +:+ name).

(** [type(obj).__dict__.get(name)]: class creation has called
    [__set_name__] on each descriptor of the body with the name it is bound
    to, and each descriptor is bound to one name. *)
Definition class_lookup (cls : pyclass) (name : string) : option descriptor :=
  if bool_decide (name ∈ cls_fields cls) then Some (__set_name__ cls name)
  else None.

(** [object.__getattribute__(obj, name)] for a name that is no field and
    under which the type provides nothing: [obj.__dict__[name]], or
    [AttributeError]. *)
Definition dict_getattr (cls : pyclass) (name : string) : M value :=
  fun w => match obj_dict w !! name with
           | Some v => (Return v, w)
           | None => (Raise (AttributeError
                        ("'" +:+ cls_name cls +:+ "' object has no attribute '"
                             +:+ name +:+ "'")), w)
           end.

(** [object.__setattr__(obj, name, value)] for a name that is no field
    and under which the type provides nothing:
    [obj.__dict__[name] = value]. *)
Definition dict_setattr (name : string) (v : value) : M unit :=
  fun w => (Return tt, World (<[name := v]> (obj_dict w)) (emitted w)).

Section PropertyWithValidator.

(** The abstract method. *)
Variable validate : value → outcome unit.

(** The builtins [getattr(obj, _)] and [setattr(obj, _, _)] on the
    instance. *)
Variable getattr : string → M value.
Variable setattr : string → value → M unit.

Definition __get__ (self : descriptor) : M value :=
  value ← getattr (property_name self);
  logging_info "__get__: %r" value;;
  mret value.

Definition __set__ (self : descriptor) (value : value) : M unit :=
  lift (validate value);;
  logging_info "__set__: %r" value;;
  setattr (property_name self) value.

End PropertyWithValidator.

(** ** Attribute access on an instance

    A data descriptor found on the class takes precedence over the instance
    dictionary, for reading and for writing; its [__get__]/[__set__] then
    call [getattr]/[setattr] again, for the name with one more leading
    underscore. No field name is longer than the longest one, which bounds
    the nesting: [depth] is how many nested descriptor calls a name can
    still start. *)

Definition max_length (names : list string) : nat :=
  fold_right (fun s m => Nat.max (String.length s) m) 0 names.

Definition depth (cls : pyclass) (name : string) : nat :=
  S (max_length (cls_fields cls)) - String.length name.

Section Instance.

Variable validate : value → outcome unit.
Variable cls : pyclass.

Fixpoint getattr_n (n : nat) (name : string) : M value :=
  match n with
  | S n' =>
      match class_lookup cls name with
      | Some d => __get__ (getattr_n n') d
      | None => dict_getattr cls name
      end
  | 0 => dict_getattr cls name
  end.

Fixpoint setattr_n (n : nat) (name : string) (v : value) : M unit :=
  match n with
  | S n' =>
      match class_lookup cls name with
      | Some d => __set__ validate (setattr_n n') d v
      | None => dict_setattr name v
      end
  | 0 => dict_setattr name v
  end.

(** [obj.name]. Its two equations, for a field and for any other name,
    are [getattr_field] and [getattr_other] below. *)
Definition getattr (name : string) : M value :=
  getattr_n (depth cls name) name.

(** [obj.name = v]. Its two equations are [setattr_field] and
    [setattr_other] below. *)
Definition setattr (name : string) (v : value) : M unit :=
  setattr_n (depth cls name) name v.

End Instance.

(** ** [IPv4] *)

Module IPv4.

Import Re.

Definition digit : regex := Range "0" "9".

(** [^(?:[0-9]{1,3}\.){3}[0-9]{1,3}$] *)
Definition ipv4_pattern : regex :=
  Cat Bol
    (Cat (Rep (Cat (Rep digit 1 3) (Lit ".")) 3 3)
       (Cat (Rep digit 1 3) Eol)).

Definition validate (value : value) : outcome unit :=
  match value with
  | VNone | VBool _ | VInt _ =>
      Raise (ValidationException
               (format "{} must be a string to be a valid ipv4 address" value))
  | VStr s =>
      if negb (match_ ipv4_pattern s) then
        Raise (ValidationException
                 (format "{} is not a valid ipv4 address" value))
      else Return tt
  end.

End IPv4.

(** ** [Flow] *)

Definition Flow : pyclass := PyClass "Flow" ["src_ipv4"; "dst_ipv4"].

(** [flow = Flow()]: no [__init__], so the instance starts with an empty
    [__dict__]; nothing has been logged. *)
Definition fresh : world := World ∅ [].

(** A class one of whose fields is named as the private slot of another:
    [class Nested: x = IPv4(); _x = IPv4()]. *)
Definition Nested : pyclass := PyClass "Nested" ["x"; "_x"].

(** ** Programs over a record

    What a caller does with a record: read a field ([obj.f]) or assign to
    one ([obj.f = v]), one statement after the other. An exception ends the
    statement that raised it; the caller catches it and goes on. *)

Inductive op : Type :=
| OpGet (field : string)
| OpSet (field : string) (v : value).

Definition op_field (o : op) : string :=
  match o with OpGet f => f | OpSet f _ => f end.

Definition returned {A} (o : outcome A) : bool :=
  match o with Return _ => true | Raise _ => false end.

(** No field's private slot is the name of a field of the class. *)
Definition slots_private (cls : pyclass) : bool :=
  forallb (fun f => negb (bool_decide (("_" +:+ f) ∈ cls_fields cls)))
    (cls_fields cls).

(** A name of the form [__x__]. Python reserves these for the runtime:
    what the type of an instance provides by itself ([__doc__], [__dict__],
    [__class__], [__weakref__], [__module__], the methods of [object]) is
    under such names, and the interpreter itself looks such names up on the
    type ([__init__], [__getattribute__], [__setattr__]). *)
Definition reserved (name : string) : bool :=
  Str.startswith "__" name && Str.startswith "__" (String.rev name).

(** No field and no private slot of a field has a reserved name: the fields
    do not stand in for anything the interpreter looks up, and attribute
    access on a private slot finds nothing on the type. *)
Definition names_unreserved (cls : pyclass) : bool :=
  forallb (fun f => negb (reserved f) && negb (reserved ("_" +:+ f)))
    (cls_fields cls).

(** All statements are about fields of the class. *)
Definition on_fields (cls : pyclass) (ops : list op) : bool :=
  forallb (fun o => bool_decide (op_field o ∈ cls_fields cls)) ops.

Section Programs.

Variable validate : value → outcome unit.
Variable cls : pyclass.

Definition exec (o : op) (w : world) : world :=
  match o with
  | OpGet f => snd (getattr cls f w)
  | OpSet f v => snd (setattr validate cls f v w)
  end.

Definition run (ops : list op) (w : world) : world :=
  fold_left (fun w o => exec o w) ops w.

(** [o] assigns to field [f] a value the validator accepts. *)
Definition writes (f : string) (o : op) : bool :=
  match o with
  | OpGet _ => false
  | OpSet f' v => bool_decide (f' = f) && returned (validate v)
  end.

(** Every value in the instance dictionary is one [validate] accepts. *)
Definition all_validated (w : world) : Prop :=
  ∀ k x, obj_dict w !! k = Some x → validate x = Return tt.

End Programs.

(** ** The shape the specification documents *)

Module Spec.

(** A decimal digit, [0] to [9]. *)
Definition decimal_digit (a : ascii) : bool := Str.has_char a "0123456789".

(** A group of 1 to 3 decimal digits. *)
Definition group (g : string) : bool :=
  (1 <=? String.length g)%nat && (String.length g <=? 3)%nat
  && Str.all decimal_digit g.

(** Four dot-separated groups of 1 to 3 decimal digits, and nothing else:
    [^\d{1,3}(\.\d{1,3}){3}$] read on the whole text. *)
Definition dotted_quad (s : string) : bool :=
  match Str.split "." s with
  | [a; b; c; d] => group a && group b && group c && group d
  | _ => false
  end.

(** The text of a dotted quad with the given groups. *)
Definition quad (a b c d : string) : string :=
  a +:+ String "." (b +:+ String "." (c +:+ String "." d)).

(** The two message shapes of the log sink, as the specification writes
    them. *)
Definition get_message (v : string) : string := "get: " +:+ v.
Definition set_message (v : string) : string := "set: " +:+ v.

End Spec.

(** * Facts *)

(** ** Strings *)

Module StrFacts.

Import Str.

Lemma app_nil_l (s : string) : "" +:+ s = s.
Proof. reflexivity. Qed.

Lemma app_cons (a : ascii) (s t : string) :
  String a s +:+ t = String a (s +:+ t).
Proof. reflexivity. Qed.

Lemma app_nil_r (s : string) : s +:+ "" = s.
Proof.
  induction s as [|a s IH]; [reflexivity|].
  now rewrite app_cons, IH.
Qed.

Lemma app_assoc (s t u : string) : (s +:+ t) +:+ u = s +:+ t +:+ u.
Proof.
  induction s as [|a s IH]; [reflexivity|].
  now rewrite !app_cons, IH.
Qed.

Lemma all_app p s t : all p (s +:+ t) = all p s && all p t.
Proof.
  induction s as [|a s IH]; [reflexivity|].
  rewrite app_cons. simpl. now rewrite IH, andb_assoc.
Qed.

Lemma contains_prefix s t : contains (s +:+ t) s.
Proof. exists "", t. reflexivity. Qed.

Lemma contains_app_l s t sub : contains t sub → contains (s +:+ t) sub.
Proof.
  intros (pre & post & ->). exists (s +:+ pre), post.
  now rewrite app_assoc.
Qed.

End StrFacts.

(** ** The matcher *)

Module ReFacts.

Import Re.

(** The matcher finds a match exactly when one exists *)

Section Adequacy.

Lemma iter_add R n m c c1 c' :
  iter R n c c1 → iter R m c1 c' → iter R (n + m) c c'.
Proof.
  revert c. induction n as [|n IH]; simpl; intros c Hn Hm.
  - now subst c1.
  - destruct Hn as (c2 & Hstep & Hn). exists c2. split; [assumption|].
    now apply IH.
Qed.

Lemma iter_split R n m c c' :
  iter R (n + m) c c' → ∃ c1, iter R n c c1 ∧ iter R m c1 c'.
Proof.
  revert c. induction n as [|n IH]; simpl; intros c H.
  - now exists c.
  - destruct H as (c2 & Hstep & H). destruct (IH _ H) as (c1 & Hn & Hm).
    exists c1. split; [|assumption]. now exists c2.
Qed.

Lemma step_if_spec p k c :
  step_if p k c = true ↔ ∃ c', den_if p c c' ∧ k c' = true.
Proof.
  unfold step_if, den_if. destruct c as [n s]; simpl. split.
  - destruct s as [|a t]; [discriminate|]. intros H.
    apply andb_true_iff in H as [Hp Hk].
    exists (Cursor (S n) t). split; [|assumption]. now exists a.
  - intros ([n' t] & (a & Hp & Hs & Hn) & Hk). simpl in *. subst s n'.
    now rewrite Hp, Hk.
Qed.

Variable step : (cursor → bool) → cursor → bool.
Variable R : cursor → cursor → Prop.
Hypothesis step_spec :
  ∀ k c, step k c = true ↔ ∃ c', R c c' ∧ k c' = true.

Lemma rep_min_spec n k c :
  rep_min step n k c = true ↔ ∃ c', iter R n c c' ∧ k c' = true.
Proof.
  revert c. induction n as [|n IH]; intros c; simpl.
  - split; [intros H; now exists c | now intros (c' & -> & H)].
  - rewrite step_spec. split.
    + intros (c1 & HR & H). apply IH in H as (c' & Hit & Hk).
      exists c'. split; [|assumption]. now exists c1.
    + intros (c' & (c1 & HR & Hit) & Hk). exists c1. split; [assumption|].
      apply IH. now exists c'.
Qed.

Lemma rep_opt_spec n k c :
  rep_opt step n k c = true ↔
  ∃ m c', (m ≤ n)%nat ∧ iter R m c c' ∧ k c' = true.
Proof.
  revert c. induction n as [|n IH]; intros c; simpl.
  - split.
    + intros H. exists 0, c. split; [lia|]. split; [reflexivity|assumption].
    + intros (m & c' & Hm & Hit & Hk).
      assert (m = 0) as -> by lia. simpl in Hit. now subst c'.
  - rewrite orb_true_iff, step_spec. split.
    + intros [(c1 & HR & H) | H].
      * apply IH in H as (m & c' & Hm & Hit & Hk).
        exists (S m), c'. split; [lia|]. split; [|assumption].
        now exists c1.
      * exists 0, c. split; [lia|]. split; [reflexivity|assumption].
    + intros (m & c' & Hm & Hit & Hk). destruct m as [|m]; simpl in Hit.
      * right. now subst c'.
      * left. destruct Hit as (c1 & HR & Hit). exists c1.
        split; [assumption|]. apply IH. exists m, c'.
        split; [lia|]. now split.
Qed.

End Adequacy.

Theorem rmatch_spec r k c :
  rmatch r k c = true ↔ ∃ c', den r c c' ∧ k c' = true.
Proof.
  revert k c.
  induction r as [| |a|lo hi|r1 IH1 r2 IH2|r IH lo hi]; intros k c; simpl.
  - rewrite andb_true_iff, Nat.eqb_eq. split.
    + intros [H0 Hk]. now exists c.
    + now intros (c' & [H0 <-] & Hk).
  - rewrite andb_true_iff. split.
    + intros [H0 Hk]. now exists c.
    + now intros (c' & [H0 <-] & Hk).
  - apply step_if_spec.
  - apply step_if_spec.
  - rewrite IH1. split.
    + intros (c1 & H1 & H2). apply IH2 in H2 as (c' & H2 & Hk).
      exists c'. split; [|assumption]. now exists c1.
    + intros (c' & (c1 & H1 & H2) & Hk). exists c1. split; [assumption|].
      apply IH2. now exists c'.
  - rewrite (rep_min_spec _ _ IH). split.
    + intros (c1 & Hlo & Hopt).
      apply (rep_opt_spec _ _ IH) in Hopt as (m & c' & Hm & Hit & Hk).
      exists c'. split; [|assumption]. exists (lo + m).
      split; [lia|]. now apply iter_add with c1.
    + intros (c' & (n & [Hlo Hhi] & Hit) & Hk).
      replace n with (lo + (n - lo)) in Hit by lia.
      apply iter_split in Hit as (c1 & H1 & H2).
      exists c1. split; [assumption|].
      apply (rep_opt_spec _ _ IH). exists (n - lo), c'.
      split; [assumption|]. now split.
Qed.

Corollary match_spec r s :
  match_ r s = true ↔ ∃ c', den r (Cursor 0 s) c'.
Proof.
  unfold match_. rewrite rmatch_spec. split.
  - intros (c' & H & _). now exists c'.
  - intros (c' & H). now exists c'.
Qed.

End ReFacts.

(** ** The cell, run *)

Example repr_plain : repr (VStr "2.2.2.2") = "'2.2.2.2'".
Proof. reflexivity. Qed.

Example repr_newline :
  repr (VStr (String "1" (String newline ""))) = String squote (String "1" (String backslash (String "n" (String squote "")))).
Proof. reflexivity. Qed.

Example str_int : str (VInt 5555) = "5555".
Proof. reflexivity. Qed.

Example flow_cell :
  (setattr IPv4.validate Flow "src_ipv4" (VStr "2.2.2.2");;
   setattr IPv4.validate Flow "dst_ipv4" (VStr "5.5.5.")) fresh
  = (Raise (ValidationException "5.5.5. is not a valid ipv4 address"),
     World {[ "_src_ipv4" := VStr "2.2.2.2" ]}
           [LogRecord INFO "__set__: '2.2.2.2'"]).
Proof. vm_compute. reflexivity. Qed.

(** ** Splitting and joining *)

Module SplitFacts.

Import Str StrFacts.

Lemma split_nonempty sep s : split sep s ≠ [].
Proof.
  induction s as [|a s IH]; simpl; [discriminate|].
  destruct (Ascii.eqb a sep); [discriminate|].
  destruct (split sep s); [contradiction | discriminate].
Qed.

(** A group without the separator, then the separator: the group is the
    first part. *)
Lemma split_group sep g t :
  has_char sep g = false →
  split sep (g +:+ String sep t) = g :: split sep t.
Proof.
  induction g as [|a g IH]; intros Hg.
  - simpl. now rewrite Ascii.eqb_refl.
  - simpl in Hg. apply orb_false_iff in Hg as [Ha Hg].
    rewrite app_cons. simpl. rewrite Ascii.eqb_sym, Ha.
    now rewrite (IH Hg).
Qed.

Lemma split_last sep g :
  has_char sep g = false → split sep g = [g].
Proof.
  induction g as [|a g IH]; intros Hg; [reflexivity|].
  simpl in Hg. apply orb_false_iff in Hg as [Ha Hg].
  simpl. rewrite Ascii.eqb_sym, Ha. now rewrite (IH Hg).
Qed.

Lemma join_split sep s : join sep (split sep s) = s.
Proof.
  induction s as [|a s IH]; [reflexivity|].
  simpl. destruct (Ascii.eqb_spec a sep) as [->|Hne].
  - destruct (split sep s) as [|g gs] eqn:E; [now apply split_nonempty in E|].
    change (join sep ("" :: g :: gs)) with (String sep (join sep (g :: gs))).
    now rewrite IH.
  - destruct (split sep s) as [|g gs] eqn:E; [now apply split_nonempty in E|].
    rewrite <- IH. destruct gs; reflexivity.
Qed.

End SplitFacts.

(** ** The documented shape, and what the pattern matches *)

Module ShapeFacts.

Import Str StrFacts SplitFacts Re ReFacts Spec IPv4.

Lemma digit_range a : in_range "0" "9" a = decimal_digit a.
Proof. destruct a as [[] [] [] [] [] [] [] []]; reflexivity. Qed.

Lemma digit_not_dot a : decimal_digit a = true → Ascii.eqb "." a = false.
Proof. destruct a as [[] [] [] [] [] [] [] []]; (reflexivity || discriminate). Qed.

Lemma digits_no_dot g : all decimal_digit g = true → has_char "." g = false.
Proof.
  induction g as [|a g IH]; cbn [all has_char]; [reflexivity|].
  intros H. apply andb_true_iff in H as [Ha Hg].
  now rewrite (digit_not_dot _ Ha), (IH Hg).
Qed.

Lemma group_spec g :
  group g = true ↔
  (1 ≤ String.length g ≤ 3)%nat ∧ all decimal_digit g = true.
Proof.
  unfold group. rewrite !andb_true_iff, !Nat.leb_le. tauto.
Qed.

Lemma group_no_dot g : group g = true → has_char "." g = false.
Proof. intros H. apply digits_no_dot. now apply group_spec in H. Qed.

Lemma dotted_quad_iff s :
  dotted_quad s = true ↔
  ∃ a b c d, group a = true ∧ group b = true ∧ group c = true
             ∧ group d = true ∧ s = quad a b c d.
Proof.
  unfold dotted_quad. split.
  - destruct (split "." s) as [|a [|b [|c [|d [|e l]]]]] eqn:E;
      try discriminate.
    intros H. apply andb_true_iff in H as [H Hd].
    apply andb_true_iff in H as [H Hc]. apply andb_true_iff in H as [Ha Hb].
    exists a, b, c, d. repeat (split; [assumption|]).
    rewrite <- (join_split "." s), E. reflexivity.
  - intros (a & b & c & d & Ha & Hb & Hc & Hd & ->). unfold quad.
    rewrite !split_group, split_last by now apply group_no_dot.
    now rewrite Ha, Hb, Hc, Hd.
Qed.

Lemma iter_digit_fwd n c c' :
  iter (den digit) n c c' →
  ∃ g, String.length g = n ∧ all decimal_digit g = true
       ∧ rest c = g +:+ rest c'.
Proof.
  revert c. induction n as [|n IH]; simpl; intros c.
  - intros <-. now exists "".
  - intros (c1 & (a & Ha & Hrest & _) & Hit).
    destruct (IH _ Hit) as (g & Hlen & Hall & Hg).
    exists (String a g). simpl. rewrite Hlen, Hall, <- digit_range, Ha.
    repeat split. now rewrite Hrest, Hg.
Qed.

Lemma iter_digit_bwd g p t :
  all decimal_digit g = true →
  iter (den digit) (String.length g) (Cursor p (g +:+ t))
    (Cursor (p + String.length g) t).
Proof.
  revert p. induction g as [|a g IH]; simpl; intros p H.
  - now rewrite Nat.add_0_r.
  - apply andb_true_iff in H as [Ha Hg].
    exists (Cursor (S p) (g +:+ t)). split.
    + exists a. rewrite digit_range. now repeat split.
    + rewrite <- Nat.add_succ_comm. now apply IH.
Qed.

Lemma den_group_fwd c c' :
  den (Rep digit 1 3) c c' → ∃ g, group g = true ∧ rest c = g +:+ rest c'.
Proof.
  intros (n & Hn & Hit). apply iter_digit_fwd in Hit as (g & Hlen & Hall & Hg).
  exists g. split; [|assumption]. apply group_spec. split; [lia|assumption].
Qed.

Lemma den_group_bwd g p t :
  group g = true →
  den (Rep digit 1 3) (Cursor p (g +:+ t)) (Cursor (p + String.length g) t).
Proof.
  intros H. apply group_spec in H as [Hlen Hall].
  exists (String.length g). split; [lia|]. now apply iter_digit_bwd.
Qed.

Lemma den_group_dot_fwd c c' :
  den (Cat (Rep digit 1 3) (Lit ".")) c c' →
  ∃ g, group g = true ∧ rest c = g +:+ String "." (rest c').
Proof.
  intros (c1 & Hg & (a & Ha & Hrest & _)).
  apply den_group_fwd in Hg as (g & Hg & Hc). exists g. split; [assumption|].
  apply Ascii.eqb_eq in Ha as <-. now rewrite Hc, Hrest.
Qed.

Lemma den_group_dot_bwd g p t :
  group g = true →
  den (Cat (Rep digit 1 3) (Lit "."))
    (Cursor p (g +:+ String "." t)) (Cursor (S (p + String.length g)) t).
Proof.
  intros H. exists (Cursor (p + String.length g) (String "." t)).
  split; [now apply den_group_bwd|]. exists "."%char. now repeat split.
Qed.

Lemma at_eol_iff t : at_eol t = true ↔ t = "" ∨ t = String newline "".
Proof.
  unfold at_eol. destruct t as [|a [|b t]].
  - split; auto.
  - rewrite Ascii.eqb_eq. split.
    + intros ->. now right.
    + intros [H|H]; [discriminate|]. now inversion H.
  - split; [discriminate|]. intros [H|H]; discriminate.
Qed.

(** The pattern matches the texts that start with a dotted quad and stop
    there, or one newline later. *)
Theorem match_ipv4_iff s :
  match_ ipv4_pattern s = true ↔
  ∃ a b c d t, group a = true ∧ group b = true ∧ group c = true
               ∧ group d = true ∧ at_eol t = true
               ∧ s = quad a b c (d +:+ t).
Proof.
  rewrite match_spec. unfold ipv4_pattern, quad. split.
  - intros (c' & c0 & [_ <-] & c3 & Hrep & c4 & Hd & [Heol <-]).
    destruct Hrep as (n & Hn & Hit).
    assert (n = 3) as -> by lia.
    destruct Hit as (c1 & H1 & c2 & H2 & c3' & H3 & <-).
    apply den_group_dot_fwd in H1 as (a & Ha & E1).
    apply den_group_dot_fwd in H2 as (b & Hb & E2).
    apply den_group_dot_fwd in H3 as (c & Hc & E3).
    apply den_group_fwd in Hd as (d & Hd & E4).
    exists a, b, c, d, (rest c4). repeat (split; [assumption|]).
    simpl in E1. now rewrite E1, E2, E3, E4.
  - intros (a & b & c & d & t & Ha & Hb & Hc & Hd & Heol & ->).
    set (p1 := S (0 + String.length a)).
    set (p2 := S (p1 + String.length b)).
    set (p3 := S (p2 + String.length c)).
    exists (Cursor (p3 + String.length d) t). eexists.
    split; [split; reflexivity|].
    exists (Cursor p3 (d +:+ t)). split.
    + exists 3. split; [lia|].
      exists (Cursor p1 (b +:+ String "." (c +:+ String "." (d +:+ t)))).
      split; [now apply den_group_dot_bwd|].
      exists (Cursor p2 (c +:+ String "." (d +:+ t))).
      split; [now apply den_group_dot_bwd|].
      exists (Cursor p3 (d +:+ t)).
      split; [now apply den_group_dot_bwd|reflexivity].
    + exists (Cursor (p3 + String.length d) t).
      split; [now apply den_group_bwd|]. now split.
Qed.

End ShapeFacts.

(** ** Attribute access, one level at a time *)

Section AttrFacts.

Variable validate : value → outcome unit.
Variable cls : pyclass.

Lemma length_le_max names name :
  name ∈ names → (String.length name ≤ max_length names)%nat.
Proof.
  induction names as [|s names IH]; intros H.
  - now apply elem_of_nil in H.
  - apply elem_of_cons in H as [->|H]; simpl; [lia|].
    specialize (IH H). lia.
Qed.

Lemma class_lookup_field name :
  name ∈ cls_fields cls →
  class_lookup cls name = Some (Descriptor ("_" +:+ name)).
Proof. intros H. unfold class_lookup. now rewrite bool_decide_eq_true_2. Qed.

Lemma class_lookup_other name :
  name ∉ cls_fields cls → class_lookup cls name = None.
Proof. intros H. unfold class_lookup. now rewrite bool_decide_eq_false_2. Qed.

Lemma depth_field name :
  name ∈ cls_fields cls → depth cls name = S (depth cls ("_" +:+ name)).
Proof.
  intros H. apply length_le_max in H. unfold depth.
  change (String.length ("_" +:+ name)) with (S (String.length name)). lia.
Qed.

(** [obj.f] for a field [f] is the descriptor's [__get__]. *)
Lemma getattr_field name :
  name ∈ cls_fields cls →
  getattr cls name = __get__ (getattr cls) (Descriptor ("_" +:+ name)).
Proof.
  intros H. unfold getattr at 1. rewrite (depth_field _ H). simpl.
  now rewrite (class_lookup_field _ H).
Qed.

(** [obj.name] for any other name reads the instance dictionary. *)
Lemma getattr_other name :
  name ∉ cls_fields cls → getattr cls name = dict_getattr cls name.
Proof.
  intros H. unfold getattr. destruct (depth cls name); simpl; [reflexivity|].
  now rewrite (class_lookup_other _ H).
Qed.

(** [obj.f = v] for a field [f] is the descriptor's [__set__]. *)
Lemma setattr_field name v :
  name ∈ cls_fields cls →
  setattr validate cls name v
  = __set__ validate (setattr validate cls) (Descriptor ("_" +:+ name)) v.
Proof.
  intros H. unfold setattr at 1. rewrite (depth_field _ H). simpl.
  now rewrite (class_lookup_field _ H).
Qed.

(** [obj.name = v] for any other name writes the instance dictionary. *)
Lemma setattr_other name v :
  name ∉ cls_fields cls → setattr validate cls name v = dict_setattr name v.
Proof.
  intros H. unfold setattr. destruct (depth cls name); simpl; [reflexivity|].
  now rewrite (class_lookup_other _ H).
Qed.

(** Induction along the private slots of a name. *)
Lemma slot_ind (P : string → Prop) :
  (∀ name, name ∉ cls_fields cls → P name) →
  (∀ name, name ∈ cls_fields cls → P ("_" +:+ name) → P name) →
  ∀ name, P name.
Proof.
  intros Hother Hfield name.
  remember (depth cls name) as n eqn:Hn. revert name Hn.
  induction n as [|n IH]; intros name Hn.
  - apply Hother. intros H. rewrite (depth_field _ H) in Hn. discriminate.
  - destruct (decide (name ∈ cls_fields cls)) as [H|H]; [|now apply Hother].
    apply Hfield; [assumption|]. apply IH.
    rewrite (depth_field _ H) in Hn. congruence.
Qed.

End AttrFacts.

(** * The validator *)

Module ValidatorFacts.

Import Str StrFacts SplitFacts Spec ShapeFacts.

Lemma quad_app a b c d t : quad a b c d +:+ t = quad a b c (d +:+ t).
Proof. unfold quad. now rewrite !app_assoc, !app_cons, !app_assoc, !app_cons, app_assoc. Qed.

Lemma validate_str s :
  IPv4.validate (VStr s) = Return tt ↔ Re.match_ IPv4.ipv4_pattern s = true.
Proof.
  unfold IPv4.validate. destruct (Re.match_ _ s); simpl; split; congruence.
Qed.

(** A text that ends with a newline does not end with a digit. *)
Lemma newline_not_digits u w v :
  u +:+ String newline "" = w +:+ v → (1 ≤ String.length v)%nat →
  all decimal_digit v = true → False.
Proof.
  revert u. induction w as [|x w IH]; intros u E Hlen Hall.
  - rewrite app_nil_l in E. subst v. rewrite all_app in Hall.
    apply andb_true_iff in Hall as [_ Hall]. discriminate.
  - destruct u as [|y u].
    + rewrite app_cons in E. injection E as _ E.
      destruct w; [|discriminate]. rewrite app_nil_l in E. subst v.
      simpl in Hlen. lia.
    + rewrite !app_cons in E. injection E as _ E. now apply (IH u).
Qed.

(** Hence no text followed by a newline is a dotted quad. *)
Lemma dotted_quad_newline s :
  dotted_quad (s +:+ String newline "") = false.
Proof.
  destruct (dotted_quad (s +:+ String newline "")) eqn:E; [|reflexivity].
  exfalso. apply dotted_quad_iff in E as (a & b & c & d & _ & _ & _ & Hd & E).
  apply group_spec in Hd as [Hlen Hall].
  apply (newline_not_digits s (quad a b c "") d);
    [now rewrite quad_app | lia | assumption].
Qed.

(** What the validator accepts, exactly: the dotted quads, and the dotted
    quads followed by one newline. *)
Theorem validate_accepts_iff v :
  IPv4.validate v = Return tt ↔
  ∃ s, v = VStr s ∧
       (dotted_quad s = true
        ∨ ∃ s', s = s' +:+ String newline "" ∧ dotted_quad s' = true).
Proof.
  split.
  - destruct v as [| | |s]; try discriminate. intros H. exists s.
    split; [reflexivity|].
    apply validate_str, match_ipv4_iff in H
      as (a & b & c & d & t & Ha & Hb & Hc & Hd & Ht & ->).
    apply at_eol_iff in Ht as [-> | ->].
    + left. rewrite app_nil_r. apply dotted_quad_iff. now exists a, b, c, d.
    + right. exists (quad a b c d). split; [now rewrite quad_app|].
      apply dotted_quad_iff. now exists a, b, c, d.
  - intros (s & -> & H). apply validate_str, match_ipv4_iff.
    destruct H as [H | (s' & -> & H)];
      apply dotted_quad_iff in H as (a & b & c & d & Ha & Hb & Hc & Hd & ->).
    + exists a, b, c, d, "". rewrite app_nil_r. now repeat split.
    + exists a, b, c, d, (String newline ""). rewrite quad_app.
      now repeat split.
Qed.

(** The validator returns, or raises a [ValidationException]. *)
Lemma validate_raises v :
  IPv4.validate v = Return tt
  ∨ ∃ msg, IPv4.validate v = Raise (ValidationException msg).
Proof.
  destruct v as [|b|z|s]; cbn [IPv4.validate]; try (right; eauto; fail).
  destruct (negb (Re.match_ IPv4.ipv4_pattern s)); [right|left]; eauto.
Qed.

(** A value that is not a [str] is rejected. *)
Lemma validate_rejects_non_str v :
  type_is_str v = false →
  ∃ msg, IPv4.validate v = Raise (ValidationException msg).
Proof. destruct v; [eauto..|discriminate]. Qed.

(** A text that is neither a dotted quad nor a dotted quad followed by one
    newline is rejected. *)
Lemma validate_rejects_other_text s :
  dotted_quad s = false →
  (∀ s', s = s' +:+ String newline "" → dotted_quad s' = false) →
  ∃ msg, IPv4.validate (VStr s) = Raise (ValidationException msg).
Proof.
  intros Hs Hnl. destruct (validate_raises (VStr s)) as [H|H]; [|assumption].
  apply validate_accepts_iff in H as (s0 & [= <-] & [H | (s' & E & H)]).
  - congruence.
  - rewrite (Hnl s' E) in H. discriminate.
Qed.

End ValidatorFacts.

(** C2: every text of the shape [^\d{1,3}(\.\d{1,3}){3}$], four
    dot-separated groups of 1 to 3 decimal digits and nothing else, is
    accepted by [validate]; the octets are not compared with 255. *)
Theorem validate_accepts_dotted_quad (s : string) :
  Spec.dotted_quad s = true → IPv4.validate (VStr s) = Return tt.
Proof.
  intros H. apply ValidatorFacts.validate_accepts_iff. exists s. auto.
Qed.

Lemma validate_accepts_dotted_quad_999 :
  Spec.dotted_quad "999.999.999.999" = true
  ∧ IPv4.validate (VStr "999.999.999.999") = Return tt.
Proof.
  split; [reflexivity|].
  apply (validate_accepts_dotted_quad "999.999.999.999"). reflexivity.
Defined.

(** C9: a dotted quad followed by a single newline is accepted by
    [validate], although it is not of the documented shape: [$] also
    matches just before a newline that ends the text. *)
Theorem validate_accepts_trailing_newline (s : string) :
  Spec.dotted_quad s = true →
  IPv4.validate (VStr (s +:+ String newline "")) = Return tt
  ∧ Spec.dotted_quad (s +:+ String newline "") = false.
Proof.
  intros H. split.
  - apply ValidatorFacts.validate_accepts_iff. eexists. split; [reflexivity|].
    right. now exists s.
  - apply ValidatorFacts.dotted_quad_newline.
Qed.

Lemma validate_accepts_trailing_newline_1234 :
  Spec.dotted_quad "1.2.3.4" = true
  ∧ IPv4.validate (VStr ("1.2.3.4" +:+ String newline "")) = Return tt
  ∧ Spec.dotted_quad ("1.2.3.4" +:+ String newline "") = false.
Proof.
  split; [reflexivity|].
  apply (validate_accepts_trailing_newline "1.2.3.4"). reflexivity.
Defined.

(** C3, at the input where the code departs from it: the text
    ["1.2.3.4\n"] is not of the documented shape, and [validate] returns
    normally on it instead of raising. *)
Theorem validate_misses_trailing_newline :
  Spec.dotted_quad ("1.2.3.4" +:+ String newline "") = false
  ∧ IPv4.validate (VStr ("1.2.3.4" +:+ String newline "")) = Return tt.
Proof. split; reflexivity. Qed.

(** C6: an exception raised by [validate] is a [ValidationException] whose
    message names the rejected value and the reason: [must be a string] for
    a value that is not a [str], [not a valid ipv4 address] for a text of
    the wrong shape. *)
Theorem validation_message (v : value) (e : exn) :
  IPv4.validate v = Raise e →
  ∃ msg, e = ValidationException msg
         ∧ Str.contains msg (str v)
         ∧ if type_is_str v
           then msg = str v +:+ " is not a valid ipv4 address"
                ∧ Str.contains msg "not a valid ipv4 address"
           else msg = str v +:+ " must be a string to be a valid ipv4 address"
                ∧ Str.contains msg "must be a string".
Proof.
  intros H.
  assert (Hre : Str.contains " is not a valid ipv4 address" "not a valid ipv4 address")
    by (exists " is ", ""; reflexivity).
  assert (Hty : Str.contains " must be a string to be a valid ipv4 address" "must be a string")
    by (exists " ", " to be a valid ipv4 address"; reflexivity).
  destruct v as [|b|z|s]; cbn [IPv4.validate] in H;
    try (injection H as <-; eexists; split; [reflexivity|];
         split; [apply StrFacts.contains_prefix|];
         cbn [type_is_str]; split; [reflexivity|];
         now apply StrFacts.contains_app_l).
  destruct (negb (Re.match_ IPv4.ipv4_pattern s)); [|discriminate].
  injection H as <-. eexists. split; [reflexivity|].
  split; [apply StrFacts.contains_prefix|].
  cbn [type_is_str]. split; [reflexivity|]. now apply StrFacts.contains_app_l.
Qed.

Lemma validation_message_5555 :
  IPv4.validate (VInt 5555)
  = Raise (ValidationException "5555 must be a string to be a valid ipv4 address")
  ∧ ∃ msg, ValidationException "5555 must be a string to be a valid ipv4 address"
           = ValidationException msg
           ∧ Str.contains msg "5555"
           ∧ msg = "5555 must be a string to be a valid ipv4 address"
           ∧ Str.contains msg "must be a string".
Proof.
  split; [reflexivity|].
  apply (validation_message (VInt 5555)). reflexivity.
Defined.

(** * The validated field *)

Lemma percent_get v : percent "__get__: %r" v = "__get__: " +:+ repr v.
Proof. cbn [percent]. now rewrite StrFacts.app_nil_r. Qed.

Lemma percent_set v : percent "__set__: %r" v = "__set__: " +:+ repr v.
Proof. cbn [percent]. now rewrite StrFacts.app_nil_r. Qed.

Section FieldFacts.

Variable validate : value → outcome unit.
Variable cls : pyclass.

Local Abbreviation slot f := ("_" +:+ f) (only parsing).

(** A rejected value stops [__set__] before anything is logged or stored. *)
Lemma setattr_rejected f v e w :
  f ∈ cls_fields cls → validate v = Raise e →
  setattr validate cls f v w = (Raise e, w).
Proof.
  intros Hf Hv. rewrite (setattr_field _ _ _ _ Hf).
  unfold __set__, mbind, M_bind, lift. now rewrite Hv.
Qed.

(** Reading never changes the instance dictionary. *)
Lemma getattr_dict name w :
  obj_dict (snd (getattr cls name w)) = obj_dict w.
Proof.
  revert w. induction name as [name Hname | name Hname IH] using (slot_ind cls);
    intros w.
  - rewrite (getattr_other _ _ Hname). unfold dict_getattr.
    now destruct (obj_dict w !! name).
  - rewrite (getattr_field _ _ Hname).
    unfold __get__, mbind, M_bind. cbn [property_name].
    specialize (IH w). destruct (getattr cls (slot name) w) as [[x|e] w1];
      simpl in *; assumption.
Qed.

(** An accepted value is stored, whatever the name, and read back (the
    type providing nothing under the name it is stored under). *)
Lemma setattr_getattr v name w :
  validate v = Return tt →
  ∃ w', setattr validate cls name v w = (Return tt, w')
        ∧ fst (getattr cls name w') = Return v
        ∧ ∃ k, obj_dict w' = <[k := v]> (obj_dict w).
Proof.
  intros Hv. revert w.
  induction name as [name Hname | name Hname IH] using (slot_ind cls);
    intros w.
  - rewrite (setattr_other _ _ _ _ Hname). eexists. split; [reflexivity|].
    rewrite (getattr_other _ _ Hname). unfold dict_getattr. simpl.
    rewrite lookup_insert_eq. split; [reflexivity|]. now exists name.
  - rewrite (setattr_field _ _ _ _ Hname).
    unfold __set__, mbind, M_bind, lift. rewrite Hv. cbn [logging_info property_name].
    destruct (IH (World (obj_dict w)
                    (emitted w ++ [LogRecord INFO (percent "__set__: %r" v)])))
      as (w' & Hset & Hget & k & Hk).
    exists w'. split; [assumption|]. split; [|now exists k].
    rewrite (getattr_field _ _ Hname).
    unfold __get__, mbind, M_bind. cbn [property_name].
    destruct (getattr cls (slot name) w') as [[x|e] w1]; simpl in Hget;
      [|discriminate].
    now injection Hget as ->.
Qed.

Lemma exec_all_validated o w :
  op_field o ∈ cls_fields cls →
  all_validated validate w → all_validated validate (exec validate cls o w).
Proof.
  intros Hf Hw. destruct o as [f|f v]; simpl in *.
  - intros k x. rewrite getattr_dict. apply Hw.
  - destruct (validate v) as [[]|e] eqn:Hv.
    + destruct (setattr_getattr v f w Hv) as (w' & -> & _ & k' & Hk).
      intros k x. simpl. rewrite Hk.
      destruct (decide (k' = k)) as [->|Hne].
      * rewrite lookup_insert_eq. now intros [= <-].
      * rewrite lookup_insert_ne by assumption. apply Hw.
    + now rewrite (setattr_rejected _ _ _ _ Hf Hv).
Qed.

Lemma run_all_validated ops w :
  on_fields cls ops = true →
  all_validated validate w → all_validated validate (run validate cls ops w).
Proof.
  revert w. induction ops as [|o ops IH]; intros w Hops Hw; [assumption|].
  simpl in Hops. apply andb_true_iff in Hops as [Ho Hops].
  apply bool_decide_eq_true in Ho. simpl. apply IH; [assumption|].
  now apply exec_all_validated.
Qed.

(** *** Classes whose private slots are not fields *)

Hypothesis private : slots_private cls = true.

Lemma slot_not_field f : f ∈ cls_fields cls → slot f ∉ cls_fields cls.
Proof.
  intros Hf. unfold slots_private in private.
  rewrite forallb_forall in private.
  apply list_elem_of_In, private, negb_true_iff in Hf.
  now apply bool_decide_eq_false in Hf.
Qed.

Lemma getattr_private f w :
  f ∈ cls_fields cls →
  getattr cls f w =
  match obj_dict w !! slot f with
  | Some v => (Return v,
               World (obj_dict w)
                     (emitted w ++ [LogRecord INFO ("__get__: " +:+ repr v)]))
  | None => (Raise (AttributeError
                      ("'" +:+ cls_name cls +:+ "' object has no attribute '"
                           +:+ slot f +:+ "'")), w)
  end.
Proof.
  intros Hf. rewrite (getattr_field _ _ Hf).
  unfold __get__, mbind, M_bind. cbn [property_name].
  rewrite (getattr_other _ _ (slot_not_field _ Hf)). unfold dict_getattr.
  destruct (obj_dict w !! slot f); [|reflexivity].
  unfold logging_info. now rewrite percent_get.
Qed.

Lemma setattr_private f v w :
  f ∈ cls_fields cls →
  setattr validate cls f v w =
  match validate v with
  | Return _ => (Return tt,
                 World (<[slot f := v]> (obj_dict w))
                       (emitted w ++ [LogRecord INFO ("__set__: " +:+ repr v)]))
  | Raise e => (Raise e, w)
  end.
Proof.
  intros Hf. rewrite (setattr_field _ _ _ _ Hf).
  unfold __set__, mbind, M_bind, lift. cbn [property_name].
  rewrite (setattr_other _ _ _ _ (slot_not_field _ Hf)).
  destruct (validate v); [|reflexivity].
  unfold logging_info. now rewrite percent_set.
Qed.

Lemma slot_inj f g : slot f = slot g → f = g.
Proof. apply (inj (String.append "_")). Qed.

(** A statement that does not write [f] leaves the slot of [f] alone. *)
Lemma exec_slot f o w :
  f ∈ cls_fields cls → op_field o ∈ cls_fields cls →
  writes validate f o = false →
  obj_dict (exec validate cls o w) !! slot f = obj_dict w !! slot f.
Proof.
  intros Hf Ho Hw. destruct o as [g|g v]; simpl in *.
  - now rewrite getattr_dict.
  - rewrite (setattr_private _ _ _ Ho).
    destruct (validate v) as [[]|e]; [|reflexivity]. simpl in *.
    rewrite andb_true_r in Hw. apply bool_decide_eq_false in Hw.
    apply lookup_insert_ne. intros E. now apply slot_inj in E.
Qed.

Lemma run_slot f ops w :
  f ∈ cls_fields cls → on_fields cls ops = true →
  existsb (writes validate f) ops = false →
  obj_dict (run validate cls ops w) !! slot f = obj_dict w !! slot f.
Proof.
  intros Hf. revert w. induction ops as [|o ops IH]; intros w Hops Hw;
    [reflexivity|].
  simpl in Hops, Hw. apply andb_true_iff in Hops as [Ho Hops].
  apply orb_false_iff in Hw as [Hwo Hw]. apply bool_decide_eq_true in Ho.
  simpl. rewrite (IH _ Hops Hw). now apply exec_slot.
Qed.

End FieldFacts.

(** [Flow] and [Nested] have no reserved name; a class with a field
    [_doc__] or [_dict__] has one, the private slot [__doc__] or
    [__dict__]. *)
Example unreserved_classes :
  names_unreserved Flow = true ∧ names_unreserved Nested = true
  ∧ names_unreserved (PyClass "Doc" ["_doc__"]) = false
  ∧ names_unreserved (PyClass "Dct" ["_dict__"; "y"]) = false.
Proof. repeat split; reflexivity. Qed.

Ltac is_field := apply list_elem_of_In; simpl; tauto.





(** C5, as stated, fails on [Nested]: [x] was never assigned, and after
    [obj._x = "1.2.3.4"] reading [obj.x] returns a value. *)
Lemma get_unwritten_field_returns :
  let ops := [OpSet "_x" (VStr "1.2.3.4")] in
  existsb (writes IPv4.validate "x") ops = false
  ∧ fst (getattr Nested "x" (run IPv4.validate Nested ops fresh))
    = Return (VStr "1.2.3.4").
Proof. split; vm_compute; reflexivity. Qed.

(** C5, amended: in a class that binds each field to a descriptor of its
    own, none of whose fields is named as the private slot of a field, and
    where no field and no private slot has a reserved name [__x__], reading
    a field that no statement so far has successfully assigned raises
    [AttributeError]. *)
Theorem get_before_write (validate : value → outcome unit) (cls : pyclass)
    (ops : list op) (f : string) :
  slots_private cls = true → names_unreserved cls = true →
  f ∈ cls_fields cls →
  on_fields cls ops = true → existsb (writes validate f) ops = false →
  let w := run validate cls ops fresh in
  getattr cls f w
  = (Raise (AttributeError ("'" +:+ cls_name cls
                                +:+ "' object has no attribute '_" +:+ f +:+ "'")),
     w).
Proof.
  intros Hp _ Hf Hops Hw w.
  rewrite (getattr_private cls Hp f w Hf). unfold w.
  now rewrite (run_slot validate cls Hp f ops fresh Hf Hops Hw).
Qed.

Lemma get_before_write_flow :
  let ops := [OpSet "src_ipv4" (VStr "2.2.2.2"); OpSet "dst_ipv4" (VStr "5.5.5.");
              OpGet "src_ipv4"] in
  let w := run IPv4.validate Flow ops fresh in
  getattr Flow "dst_ipv4" w
  = (Raise (AttributeError "'Flow' object has no attribute '_dst_ipv4'"), w).
Proof.
  apply (get_before_write IPv4.validate Flow
           [OpSet "src_ipv4" (VStr "2.2.2.2"); OpSet "dst_ipv4" (VStr "5.5.5.");
            OpGet "src_ipv4"] "dst_ipv4").
  - reflexivity.
  - reflexivity.
  - is_field.
  - reflexivity.
  - reflexivity.
Defined.

(** C7, as stated, fails on [Flow]: the one record a successful
    [flow.src_ipv4 = "2.2.2.2"] emits reads [__set__: '2.2.2.2'], which is
    not [set: 2.2.2.2] and has no [set: ] in it, and the one a following
    read emits reads [__get__: '2.2.2.2'], which is not [get: 2.2.2.2] and
    has no [get: ] in it. It fails on [Nested] too, where one assignment to
    [x] and one read of it emit two records each. *)
Lemma log_messages_differ :
  let w1 := snd (setattr IPv4.validate Flow "src_ipv4" (VStr "2.2.2.2") fresh) in
  let w2 := snd (getattr Flow "src_ipv4" w1) in
  let n1 := snd (setattr IPv4.validate Nested "x" (VStr "2.2.2.2") fresh) in
  let n2 := snd (getattr Nested "x" n1) in
  emitted w1 = [LogRecord INFO "__set__: '2.2.2.2'"]
  ∧ emitted w1 ≠ [LogRecord INFO (Spec.set_message "2.2.2.2")]
  ∧ Str.isin "set: " "__set__: '2.2.2.2'" = false
  ∧ emitted w2 = (emitted w1 ++ [LogRecord INFO "__get__: '2.2.2.2'"])%list
  ∧ emitted w2 ≠ (emitted w1 ++ [LogRecord INFO (Spec.get_message "2.2.2.2")])%list
  ∧ Str.isin "get: " "__get__: '2.2.2.2'" = false
  ∧ length (emitted n1) = 2
  ∧ length (emitted n2) = length (emitted n1) + 2.
Proof. repeat split; vm_compute; (reflexivity || discriminate). Qed.

(** C7, amended: in a class that binds each field to a descriptor of its
    own, none of whose fields is named as the private slot of a field, and
    where no field and no private slot has a reserved name [__x__], a read
    of a field that returns [v] emits exactly one
    record, at level INFO, with the message [__get__: ] followed by
    [repr(v)], and a successful assignment of [v] to a field emits exactly
    one, [__set__: ] followed by [repr(v)]; a read or an assignment that
    raises emits none. *)
Theorem access_logs_once (validate : value → outcome unit) (cls : pyclass)
    (f : string) (v : value) (w : world) :
  slots_private cls = true → names_unreserved cls = true →
  f ∈ cls_fields cls →
  match getattr cls f w with
  | (Return x, w') =>
      emitted w' = (emitted w ++ [LogRecord INFO ("__get__: " +:+ repr x)])%list
  | (Raise _, w') => emitted w' = emitted w
  end
  ∧ match setattr validate cls f v w with
    | (Return _, w') =>
        emitted w' = (emitted w ++ [LogRecord INFO ("__set__: " +:+ repr v)])%list
    | (Raise _, w') => emitted w' = emitted w
    end.
Proof.
  intros Hp _ Hf. split.
  - rewrite (getattr_private cls Hp f w Hf).
    now destruct (obj_dict w !! ("_" +:+ f)).
  - rewrite (setattr_private validate cls Hp f v w Hf).
    now destruct (validate v).
Qed.

Lemma access_logs_once_flow :
  let w := World {[ "_src_ipv4" := VStr "2.2.2.2" ]}
             [LogRecord INFO "__set__: '2.2.2.2'"] in
  match getattr Flow "src_ipv4" w with
  | (Return x, w') =>
      emitted w' = (emitted w ++ [LogRecord INFO ("__get__: " +:+ repr x)])%list
  | (Raise _, w') => emitted w' = emitted w
  end
  ∧ match setattr IPv4.validate Flow "src_ipv4" (VStr "9.9.9.9") w with
    | (Return _, w') =>
        emitted w' = (emitted w ++ [LogRecord INFO "__set__: '9.9.9.9'"])%list
    | (Raise _, w') => emitted w' = emitted w
    end.
Proof.
  apply (access_logs_once IPv4.validate Flow "src_ipv4" (VStr "9.9.9.9")).
  - reflexivity.
  - reflexivity.
  - is_field.
Defined.

(** C8, at the input where the code departs from it: after
    [flow.src_ipv4 = "1.2.3.4\n"] on a fresh [Flow], the field holds a text
    that is not of the shape digits.digits.digits.digits. *)
Theorem stored_value_outside_shape :
  let v := "1.2.3.4" +:+ String newline "" in
  let w := run IPv4.validate Flow [OpSet "src_ipv4" (VStr v)] fresh in
  obj_dict w !! "_src_ipv4" = Some (VStr v)
  ∧ fst (getattr Flow "src_ipv4" w) = Return (VStr v)
  ∧ Spec.dotted_quad v = false.
Proof. repeat split; vm_compute; reflexivity. Qed.

(** What does hold of the stored values: each is a text [validate] accepts,
    a dotted quad or a dotted quad followed by one newline. *)
Lemma stored_values_accepted (cls : pyclass) (ops : list op) (k : string)
    (x : value) :
  on_fields cls ops = true →
  obj_dict (run IPv4.validate cls ops fresh) !! k = Some x →
  ∃ s, x = VStr s ∧
       (Spec.dotted_quad s = true
        ∨ ∃ s', s = s' +:+ String newline "" ∧ Spec.dotted_quad s' = true).
Proof.
  intros Hops Hk. apply ValidatorFacts.validate_accepts_iff.
  apply (run_all_validated IPv4.validate cls ops fresh Hops) with k;
    [|assumption].
  intros k' x' H. unfold fresh in H. cbn [obj_dict] in H.
  now rewrite lookup_empty in H.
Qed.

(** C10, as stated, fails on [Nested]: the field [_x] is unset, and set
    once [x] has been assigned. *)
Lemma set_changes_other_field :
  let w := snd (setattr IPv4.validate Nested "x" (VStr "1.2.3.4") fresh) in
  fst (getattr Nested "_x" fresh)
  = Raise (AttributeError "'Nested' object has no attribute '__x'")
  ∧ fst (getattr Nested "_x" w) = Return (VStr "1.2.3.4").
Proof. split; vm_compute; reflexivity. Qed.

(** C10, amended: in a class that binds each field to a descriptor of its
    own, none of whose fields is named as the private slot of a field, and
    where no field and no private slot has a reserved name [__x__], an
    assignment to one field leaves what every other field reads unchanged;
    the private slots of distinct fields are distinct keys of the instance
    dictionary. *)
Theorem set_frames_other_fields (validate : value → outcome unit)
    (cls : pyclass) (a b : string) (v : value) (w : world) :
  slots_private cls = true → names_unreserved cls = true →
  a ∈ cls_fields cls → b ∈ cls_fields cls → a ≠ b →
  fst (getattr cls b (snd (setattr validate cls a v w)))
  = fst (getattr cls b w)
  ∧ obj_dict (snd (setattr validate cls a v w)) !! ("_" +:+ b)
    = obj_dict w !! ("_" +:+ b).
Proof.
  intros Hp _ Ha Hb Hne.
  assert (Hslot : obj_dict (snd (setattr validate cls a v w)) !! ("_" +:+ b)
                  = obj_dict w !! ("_" +:+ b)).
  { rewrite (setattr_private validate cls Hp a v w Ha).
    destruct (validate v); [|reflexivity]. simpl.
    apply lookup_insert_ne. intros E. now apply slot_inj in E. }
  split; [|assumption].
  rewrite !(getattr_private cls Hp b _ Hb), Hslot.
  now destruct (obj_dict w !! ("_" +:+ b)).
Qed.

Lemma set_frames_other_fields_flow :
  let w := World {[ "_dst_ipv4" := VStr "5.5.5.5" ]} [] in
  fst (getattr Flow "dst_ipv4"
         (snd (setattr IPv4.validate Flow "src_ipv4" (VStr "2.2.2.2") w)))
  = fst (getattr Flow "dst_ipv4" w)
  ∧ obj_dict (snd (setattr IPv4.validate Flow "src_ipv4" (VStr "2.2.2.2") w))
      !! "_dst_ipv4"
    = obj_dict w !! "_dst_ipv4".
Proof.
  apply (set_frames_other_fields IPv4.validate Flow "src_ipv4" "dst_ipv4").
  - reflexivity.
  - reflexivity.
  - is_field.
  - is_field.
  - discriminate.
Defined.

(** * Beyond the classes with private slots

    In any class, an attribute access resolves to one key of the instance
    dictionary, the name after as many underscores as there are descriptors
    on the way, and each of these descriptors logs the access once (the
    type providing nothing under that key). *)

Section Resolution.

Variable validate : value → outcome unit.
Variable cls : pyclass.

Local Abbreviation no_attribute k :=
  (AttributeError ("'" +:+ cls_name cls +:+ "' object has no attribute '"
                       +:+ k +:+ "'")) (only parsing).
Local Abbreviation get_record x :=
  (LogRecord INFO ("__get__: " +:+ repr x)) (only parsing).
Local Abbreviation set_record x :=
  (LogRecord INFO ("__set__: " +:+ repr x)) (only parsing).

Lemma world_eta w : World (obj_dict w) (emitted w ++ []) = w.
Proof. destruct w. simpl. now rewrite app_nil_r. Qed.

Lemma access_resolved name :
  ∃ (k : string) (n : nat),
    (k ∉ cls_fields cls)
    ∧ (name ∉ cls_fields cls → k = name ∧ n = 0)
    ∧ (name ∈ cls_fields cls →
       (1 ≤ n)%nat ∧ ∃ g, g ∈ cls_fields cls ∧ k = "_" +:+ g)
    ∧ (∀ w, getattr cls name w =
            match obj_dict w !! k with
            | Some x => (Return x,
                         World (obj_dict w)
                               (emitted w ++ replicate n (get_record x)))
            | None => (Raise (no_attribute k), w)
            end)
    ∧ (∀ v w, validate v = Return tt →
              setattr validate cls name v w =
              (Return tt,
               World (<[k := v]> (obj_dict w))
                     (emitted w ++ replicate n (set_record v)))).
Proof.
  induction name as [name Hname | name Hname IH] using (slot_ind cls).
  - exists name, 0. split; [assumption|]. split; [auto|].
    split; [contradiction|]. split.
    + intros w. rewrite (getattr_other _ _ Hname). unfold dict_getattr.
      destruct (obj_dict w !! name); [|reflexivity]. simpl.
      now rewrite world_eta.
    + intros v w _. rewrite (setattr_other _ _ _ _ Hname).
      unfold dict_setattr. simpl. now rewrite app_nil_r.
  - destruct IH as (k & n & Hk & Hother & Hfield & Hget & Hset).
    exists k, (S n). split; [assumption|]. split; [contradiction|]. split.
    + intros _. split; [lia|].
      destruct (decide (("_" +:+ name) ∈ cls_fields cls)) as [H|H].
      * now apply Hfield.
      * exists name. split; [assumption|]. now apply Hother.
    + split.
      * intros w. rewrite (getattr_field _ _ Hname).
        unfold __get__, mbind, M_bind. cbn [property_name]. rewrite Hget.
        destruct (obj_dict w !! k) as [x|]; [|reflexivity].
        unfold logging_info. cbn [obj_dict emitted mret M_ret].
        now rewrite percent_get, replicate_S_end, app_assoc.
      * intros v w Hv. rewrite (setattr_field _ _ _ _ Hname).
        unfold __set__, mbind, M_bind, lift. rewrite Hv.
        cbn [property_name logging_info]. rewrite (Hset _ _ Hv).
        cbn [obj_dict emitted]. now rewrite percent_set, <- app_assoc.
Qed.

(** Statements only add keys to the instance dictionary. *)
Lemma exec_is_Some o k w :
  is_Some (obj_dict w !! k) →
  is_Some (obj_dict (exec validate cls o w) !! k).
Proof.
  intros Hk. destruct o as [f|f v]; simpl.
  - now rewrite getattr_dict.
  - destruct (decide (f ∈ cls_fields cls)) as [Hf|Hf].
    + destruct (validate v) as [[]|e] eqn:Hv.
      * destruct (access_resolved f) as (k' & n & _ & _ & _ & _ & Hset).
        rewrite (Hset _ _ Hv). simpl. apply lookup_insert_is_Some'. now right.
      * now rewrite (setattr_rejected _ _ _ _ _ _ Hf Hv).
    + rewrite (setattr_other _ _ _ _ Hf). simpl.
      apply lookup_insert_is_Some'. now right.
Qed.

Lemma run_is_Some ops k w :
  is_Some (obj_dict w !! k) →
  is_Some (obj_dict (run validate cls ops w) !! k).
Proof.
  revert w. induction ops as [|o ops IH]; intros w Hk; [assumption|].
  simpl. now apply IH, exec_is_Some.
Qed.

(** A statement on a field stores, if at all, under the private slot of a
    field, which is not itself the name of a field. *)
Lemma exec_keys o w :
  op_field o ∈ cls_fields cls →
  ∀ k, is_Some (obj_dict (exec validate cls o w) !! k) →
       is_Some (obj_dict w !! k)
       ∨ ((k ∉ cls_fields cls) ∧ ∃ g, g ∈ cls_fields cls ∧ k = "_" +:+ g).
Proof.
  intros Hf k. destruct o as [f|f v]; simpl in *.
  - rewrite getattr_dict. now left.
  - destruct (validate v) as [[]|e] eqn:Hv.
    + destruct (access_resolved f) as (k' & n & Hk' & _ & Hg & _ & Hset).
      rewrite (Hset _ _ Hv). simpl. intros H.
      apply lookup_insert_is_Some in H as [<- | [_ H]]; [right | now left].
      split; [assumption|]. now apply Hg.
    + rewrite (setattr_rejected _ _ _ _ _ _ Hf Hv). now left.
Qed.

End Resolution.

(** ** What [repr] writes *)

Module ReprFacts.

Import Str StrFacts Spec ShapeFacts.

Lemma length_app (s t : string) :
  String.length (s +:+ t) = String.length s + String.length t.
Proof.
  induction s as [|a s IH]; [reflexivity|].
  rewrite app_cons. simpl. now rewrite IH.
Qed.


(** A digit or a dot is written as it is, and is no quote. *)
Lemma repr_char_plain a :
  decimal_digit a || Ascii.eqb a "." = true →
  repr_char squote a = String a ""
  ∧ Ascii.eqb squote a = false ∧ Ascii.eqb dquote a = false.
Proof.
  destruct a as [[] [] [] [] [] [] [] []]; simpl;
    (discriminate || (intros _; repeat split; reflexivity)).
Qed.

Lemma repr_body_plain s :
  all (fun a => decimal_digit a || Ascii.eqb a ".") s = true →
  repr_body squote s = s ∧ has_char squote s = false.
Proof.
  induction s as [|a s IH]; [now split|]. cbn [all repr_body has_char].
  intros H. apply andb_true_iff in H as [Ha Hs].
  destruct (repr_char_plain a Ha) as (-> & -> & _).
  destruct (IH Hs) as [-> ->]. now split.
Qed.

Lemma digits_plain g :
  all decimal_digit g = true →
  all (fun a => decimal_digit a || Ascii.eqb a ".") g = true.
Proof.
  induction g as [|a g IH]; [reflexivity|]. cbn [all].
  intros H. apply andb_true_iff in H as [-> Hg]. now rewrite (IH Hg).
Qed.

Lemma quad_plain a b c d :
  group a = true → group b = true → group c = true → group d = true →
  all (fun a => decimal_digit a || Ascii.eqb a ".") (quad a b c d) = true.
Proof.
  intros Ha Hb Hc Hd. unfold quad.
  apply group_spec in Ha as [_ Ha], Hb as [_ Hb], Hc as [_ Hc], Hd as [_ Hd].
  rewrite !all_app. cbn [all].
  rewrite !all_app. cbn [all]. rewrite !all_app. cbn [all].
  now rewrite !digits_plain by assumption.
Qed.




End ReprFacts.

(** * Further properties of the cell *)

(** X1: [validate] returns normally on exactly the texts that are a dotted
    quad or a dotted quad followed by one newline; every other text and
    every value that is not a [str] is rejected. *)
Theorem validate_accepts_exactly (v : value) :
  IPv4.validate v = Return tt ↔
  ∃ s, v = VStr s ∧
       (Spec.dotted_quad s = true
        ∨ ∃ s', s = s' +:+ String newline "" ∧ Spec.dotted_quad s' = true).
Proof. apply ValidatorFacts.validate_accepts_iff. Qed.

(** X2: a value [validate] accepts is a text of 7 to 16 code points. *)
Theorem accepted_length_bounds (v : value) :
  IPv4.validate v = Return tt →
  ∃ s, v = VStr s ∧ (7 ≤ String.length s ≤ 16)%nat.
Proof.
  intros H. destruct v as [| | |s]; try discriminate. exists s.
  split; [reflexivity|].
  apply ValidatorFacts.validate_str, ShapeFacts.match_ipv4_iff in H
    as (a & b & c & d & t & Ha & Hb & Hc & Hd & Ht & ->).
  apply ShapeFacts.group_spec in Ha as [Ha _], Hb as [Hb _],
    Hc as [Hc _], Hd as [Hd _].
  assert (Hlen : (String.length t ≤ 1)%nat)
    by (apply ShapeFacts.at_eol_iff in Ht as [-> | ->]; simpl; lia).
  unfold Spec.quad.
  rewrite !ReprFacts.length_app. cbn [String.length].
  rewrite !ReprFacts.length_app. cbn [String.length].
  rewrite !ReprFacts.length_app. cbn [String.length].
  rewrite !ReprFacts.length_app. lia.
Qed.

Lemma accepted_length_bounds_1234 :
  ∃ s, VStr "1.2.3.4" = VStr s ∧ (7 ≤ String.length s ≤ 16)%nat.
Proof. apply (accepted_length_bounds (VStr "1.2.3.4")). reflexivity. Defined.

(** X3: the record logged for a dotted quad is the label followed by the
    text between single quotes, with nothing escaped. *)
Theorem dotted_quad_log_record (s : string) (w : world) :
  Spec.dotted_quad s = true →
  logging_info "__get__: %r" (VStr s) w
  = (Return tt,
     World (obj_dict w)
       (emitted w ++ [LogRecord INFO ("__get__: '" +:+ s +:+ "'")]))
  ∧ logging_info "__set__: %r" (VStr s) w
    = (Return tt,
       World (obj_dict w)
         (emitted w ++ [LogRecord INFO ("__set__: '" +:+ s +:+ "'")])).
Proof.
  intros H.
  apply ShapeFacts.dotted_quad_iff in H as (a & b & c & d & Ha & Hb & Hc & Hd & ->).
  destruct (ReprFacts.repr_body_plain _ (ReprFacts.quad_plain a b c d Ha Hb Hc Hd))
    as [Hbody Hquote].
  assert (Hrepr : repr (VStr (Spec.quad a b c d))
                  = "'" +:+ Spec.quad a b c d +:+ "'").
  { cbn [repr]. unfold repr_str. rewrite Hquote. cbn [andb].
    now rewrite Hbody. }
  unfold logging_info. now rewrite percent_get, percent_set, Hrepr.
Qed.

Lemma dotted_quad_log_record_2222 :
  logging_info "__get__: %r" (VStr "2.2.2.2") fresh
  = (Return tt, World ∅ [LogRecord INFO "__get__: '2.2.2.2'"])
  ∧ logging_info "__set__: %r" (VStr "2.2.2.2") fresh
    = (Return tt, World ∅ [LogRecord INFO "__set__: '2.2.2.2'"]).
Proof. apply (dotted_quad_log_record "2.2.2.2" fresh). reflexivity. Defined.




(** X5: in any class, reading an attribute leaves the instance dictionary
    as it was, and reading it again gives the same outcome. *)
Theorem getattr_reads_only (cls : pyclass) (name : string) (w : world) :
  obj_dict (snd (getattr cls name w)) = obj_dict w
  ∧ fst (getattr cls name (snd (getattr cls name w)))
    = fst (getattr cls name w).
Proof.
  destruct (access_resolved IPv4.validate cls name)
    as (k & n & _ & _ & _ & Hget & _).
  rewrite !Hget. destruct (obj_dict w !! k) as [x|] eqn:Hk; simpl.
  - now rewrite Hk.
  - now rewrite Hk.
Qed.



(** X7: in a class that binds each field to a descriptor of its own and
    where no field and no private slot has a reserved name [__x__], also
    one where a private slot is itself a field, each field has a number
    [n] of at least 1, the descriptors its access goes through, such that
    a read that returns [x]
    emits [n] records [__get__: repr(x)] and nothing else, an accepted
    assignment of [v] emits [n] records [__set__: repr(v)] and nothing
    else, and a read or an assignment that raises emits nothing. *)
Theorem access_logs_per_descriptor (validate : value → outcome unit)
    (cls : pyclass) (f : string) :
  names_unreserved cls = true → f ∈ cls_fields cls →
  ∃ n, (1 ≤ n)%nat ∧ ∀ v w,
    match getattr cls f w with
    | (Return x, w') =>
        emitted w'
        = (emitted w ++ replicate n (LogRecord INFO ("__get__: " +:+ repr x)))%list
    | (Raise _, w') => emitted w' = emitted w
    end
    ∧ match setattr validate cls f v w with
      | (Return _, w') =>
          emitted w'
          = (emitted w ++ replicate n (LogRecord INFO ("__set__: " +:+ repr v)))%list
      | (Raise _, w') => emitted w' = emitted w
      end.
Proof.
  intros _ Hf.
  destruct (access_resolved validate cls f)
    as (k & n & _ & _ & Hfield & Hget & Hset).
  exists n. split; [now apply Hfield|]. intros v w. split.
  - rewrite Hget. now destruct (obj_dict w !! k).
  - destruct (validate v) as [[]|e] eqn:Hv.
    + now rewrite (Hset _ _ Hv).
    + now rewrite (setattr_rejected _ _ _ _ _ _ Hf Hv).
Qed.

Lemma access_logs_per_descriptor_nested :
  ∃ n, (1 ≤ n)%nat ∧ ∀ v w,
    match getattr Nested "x" w with
    | (Return x, w') =>
        emitted w'
        = (emitted w ++ replicate n (LogRecord INFO ("__get__: " +:+ repr x)))%list
    | (Raise _, w') => emitted w' = emitted w
    end
    ∧ match setattr IPv4.validate Nested "x" v w with
      | (Return _, w') =>
          emitted w'
          = (emitted w ++ replicate n (LogRecord INFO ("__set__: " +:+ repr v)))%list
      | (Raise _, w') => emitted w' = emitted w
      end.
Proof.
  apply (access_logs_per_descriptor IPv4.validate Nested "x").
  - reflexivity.
  - is_field.
Defined.

(** X8: whatever the validator, in a class that binds each field to a
    descriptor of its own and where no field and no private slot has a
    reserved name [__x__], a value read from a field after a program over
    the fields of the class, run on a fresh instance, is one the validator
    accepts. *)
Theorem read_value_validated (validate : value → outcome unit)
    (cls : pyclass) (ops : list op) (f : string) (x : value) :
  names_unreserved cls = true → f ∈ cls_fields cls →
  on_fields cls ops = true →
  fst (getattr cls f (run validate cls ops fresh)) = Return x →
  validate x = Return tt.
Proof.
  intros _ _ Hops H.
  destruct (access_resolved validate cls f) as (k & n & _ & _ & _ & Hget & _).
  rewrite Hget in H.
  destruct (obj_dict (run validate cls ops fresh) !! k) as [y|] eqn:Hk;
    [|discriminate].
  simpl in H. injection H as ->.
  apply (run_all_validated validate cls ops fresh Hops) with k; [|assumption].
  intros k' x' Hk'. unfold fresh in Hk'. cbn [obj_dict] in Hk'.
  now rewrite lookup_empty in Hk'.
Qed.

Lemma read_value_validated_flow :
  IPv4.validate (VStr "2.2.2.2") = Return tt.
Proof.
  apply (read_value_validated IPv4.validate Flow
           [OpSet "src_ipv4" (VStr "2.2.2.2"); OpSet "src_ipv4" (VInt 5555)]
           "src_ipv4").
  - reflexivity.
  - is_field.
  - reflexivity.
  - vm_compute. reflexivity.
Defined.

(** X9: after a program over the fields of a class, run on a fresh
    instance, every key of the instance dictionary is the private slot of
    a field, and none is the name of a field. *)
Theorem instance_keys_private (validate : value → outcome unit)
    (cls : pyclass) (ops : list op) (k : string) :
  on_fields cls ops = true →
  is_Some (obj_dict (run validate cls ops fresh) !! k) →
  (k ∉ cls_fields cls) ∧ ∃ g, g ∈ cls_fields cls ∧ k = "_" +:+ g.
Proof.
  assert (H : ∀ w, on_fields cls ops = true →
            is_Some (obj_dict (run validate cls ops w) !! k) →
            is_Some (obj_dict w !! k)
            ∨ ((k ∉ cls_fields cls) ∧ ∃ g, g ∈ cls_fields cls ∧ k = "_" +:+ g)).
  { induction ops as [|o ops IH]; intros w Hops Hk; [now left|].
    simpl in Hops. apply andb_true_iff in Hops as [Ho Hops].
    apply bool_decide_eq_true in Ho. simpl in Hk.
    destruct (IH _ Hops Hk) as [Hk'|Hk']; [|now right].
    now apply (exec_keys validate cls o w Ho). }
  intros Hops Hk. destruct (H fresh Hops Hk) as [Hk'|Hk']; [|assumption].
  unfold fresh in Hk'. cbn [obj_dict] in Hk'. rewrite lookup_empty in Hk'.
  now destruct Hk'.
Qed.

Lemma instance_keys_private_flow :
  ("_src_ipv4" ∉ cls_fields Flow)
  ∧ ∃ g, g ∈ cls_fields Flow ∧ "_src_ipv4" = "_" +:+ g.
Proof.
  apply (instance_keys_private IPv4.validate Flow
           [OpSet "src_ipv4" (VStr "2.2.2.2")] "_src_ipv4").
  - reflexivity.
  - vm_compute. eauto.
Defined.

(** X10: in any class, a field that reads a value keeps reading one after
    any further statements: nothing unsets a field. *)
Theorem set_field_stays_set (validate : value → outcome unit)
    (cls : pyclass) (ops : list op) (f : string) (w : world) :
  returned (fst (getattr cls f w)) = true →
  returned (fst (getattr cls f (run validate cls ops w))) = true.
Proof.
  destruct (access_resolved validate cls f) as (k & n & _ & _ & _ & Hget & _).
  rewrite !Hget. intros H.
  assert (Hk : is_Some (obj_dict w !! k))
    by (destruct (obj_dict w !! k); [eauto | discriminate]).
  apply (run_is_Some validate cls ops) in Hk as [y ->]. reflexivity.
Qed.

Lemma set_field_stays_set_flow :
  let w := World {[ "_src_ipv4" := VStr "2.2.2.2" ]} [] in
  returned (fst (getattr Flow "src_ipv4"
                   (run IPv4.validate Flow
                      [OpSet "src_ipv4" (VStr "5.5.5."); OpSet "dst_ipv4" (VStr "9.9.9.9");
                       OpGet "dst_ipv4"] w))) = true.
Proof.
  apply (set_field_stays_set IPv4.validate Flow
           [OpSet "src_ipv4" (VStr "5.5.5."); OpSet "dst_ipv4" (VStr "9.9.9.9");
            OpGet "dst_ipv4"] "src_ipv4").
  reflexivity.
Defined.

(** X11: in a class that binds each field to a descriptor of its own and
    where no field and no private slot has a reserved name [__x__], an
    accepted assignment to a field overwrites what an earlier assignment
    to it stored: the instance dictionary is the one
    the later assignment alone would give, and the field reads the later
    value. *)
Theorem last_write_wins (validate : value → outcome unit) (cls : pyclass)
    (f : string) (v1 v2 : value) (w : world) :
  names_unreserved cls = true →
  f ∈ cls_fields cls → validate v2 = Return tt →
  let w2 := snd (setattr validate cls f v2 (snd (setattr validate cls f v1 w))) in
  obj_dict w2 = obj_dict (snd (setattr validate cls f v2 w))
  ∧ fst (getattr cls f w2) = Return v2.
Proof.
  intros _ Hf Hv2.
  destruct (access_resolved validate cls f)
    as (k & n & _ & _ & _ & Hget & Hset).
  cbv zeta. rewrite !(Hset v2 _ Hv2), Hget. cbn [snd fst obj_dict].
  rewrite lookup_insert_eq. split; [|reflexivity].
  destruct (validate v1) as [[]|e] eqn:Hv1.
  - rewrite (Hset v1 _ Hv1). cbn [snd obj_dict]. apply insert_insert_eq.
  - now rewrite (setattr_rejected _ _ _ _ _ _ Hf Hv1).
Qed.

Lemma last_write_wins_flow :
  let w2 := snd (setattr IPv4.validate Flow "src_ipv4" (VStr "9.9.9.9")
                   (snd (setattr IPv4.validate Flow "src_ipv4" (VStr "2.2.2.2")
                           fresh))) in
  obj_dict w2
  = obj_dict (snd (setattr IPv4.validate Flow "src_ipv4" (VStr "9.9.9.9") fresh))
  ∧ fst (getattr Flow "src_ipv4" w2) = Return (VStr "9.9.9.9").
Proof.
  apply (last_write_wins IPv4.validate Flow "src_ipv4" (VStr "2.2.2.2")
           (VStr "9.9.9.9") fresh).
  - reflexivity.
  - is_field.
  - reflexivity.
Defined.

(** X12: in a class that binds each field to a descriptor of its own, none
    of whose fields is named as the private slot of a field, and where no
    field and no private slot has a reserved name [__x__], assignments to
    two distinct fields give the same instance dictionary in either
    order. *)
Theorem sets_commute (validate : value → outcome unit) (cls : pyclass)
    (a b : string) (va vb : value) (w : world) :
  slots_private cls = true → names_unreserved cls = true →
  a ∈ cls_fields cls → b ∈ cls_fields cls → a ≠ b →
  obj_dict (snd (setattr validate cls b vb (snd (setattr validate cls a va w))))
  = obj_dict (snd (setattr validate cls a va (snd (setattr validate cls b vb w)))).
Proof.
  intros Hp _ Ha Hb Hne.
  rewrite !(setattr_private validate cls Hp a va _ Ha),
          !(setattr_private validate cls Hp b vb _ Hb).
  destruct (validate va), (validate vb); cbn [snd obj_dict];
    try reflexivity.
  apply insert_insert_ne. intros E. apply Hne.
  now apply (inj (String.append "_")) in E.
Qed.

Lemma sets_commute_flow :
  obj_dict (snd (setattr IPv4.validate Flow "dst_ipv4" (VStr "5.5.5.5")
                   (snd (setattr IPv4.validate Flow "src_ipv4" (VStr "2.2.2.2")
                           fresh))))
  = obj_dict (snd (setattr IPv4.validate Flow "src_ipv4" (VStr "2.2.2.2")
                     (snd (setattr IPv4.validate Flow "dst_ipv4" (VStr "5.5.5.5")
                             fresh)))).
Proof.
  apply (sets_commute IPv4.validate Flow "src_ipv4" "dst_ipv4").
  - reflexivity.
  - reflexivity.
  - is_field.
  - is_field.
  - discriminate.
Defined.

(** X14: in a class that binds each field to a descriptor of its own and
    where no field and no private slot has a reserved name [__x__], an
    assignment to a field ends as [validate] does on the value: it returns
    when the validator returns, and raises the validator's exception, and
    no other, when the validator raises. *)
Theorem set_outcome_is_validate (validate : value → outcome unit)
    (cls : pyclass) (f : string) (v : value) (w : world) :
  names_unreserved cls = true → f ∈ cls_fields cls →
  fst (setattr validate cls f v w) = validate v.
Proof.
  intros _ Hf. destruct (validate v) as [[]|e] eqn:Hv.
  - destruct (access_resolved validate cls f) as (k & n & _ & _ & _ & _ & Hset).
    now rewrite (Hset _ _ Hv).
  - now rewrite (setattr_rejected _ _ _ _ _ _ Hf Hv).
Qed.

Lemma set_outcome_is_validate_nested :
  fst (setattr IPv4.validate Nested "x" (VInt 5555) fresh)
  = IPv4.validate (VInt 5555).
Proof.
  apply (set_outcome_is_validate IPv4.validate Nested "x" (VInt 5555) fresh).
  - reflexivity.
  - is_field.
Defined.
